(** * Prusa-Link state manager: layered printer state and change attribution

    A shallow embedding of
    [prusa/link/printer_adapter/informers/state_manager.py].

    The Python object [StateManager] is mutated in place by its methods and
    publishes three blinker signals.  Here a method is a computation in a
    small state-and-trace monad [M]: it threads the manager and accumulates
    the signals that were sent, each one together with the sender as the
    receivers see it at the time of the call. *)

From Stdlib Require Import ZArith List String.
From stdpp Require Import base decidable countable option gmap.
Import ListNotations.

Set Default Proof Using "Type".

(** ** Enumerations of [prusa.connect.printer.const] *)

Module Const.

(** Modelled from the spec: the enumeration [State] is imported from
    [prusa.connect.printer.const], which is not among the sources.  Its
    members are the ones the state manager names; the spec lists the same
    closed set. *)
Inductive State : Set :=
  | READY | BUSY | PRINTING | PAUSED | FINISHED | ATTENTION | ERROR.

(** Modelled from the spec: the enumeration [Source] is imported from
    [prusa.connect.printer.const] as well.  The members are the origins the
    state manager attributes transitions to. *)
Inductive Source : Set :=
  | USER | MARLIN | HW | CONNECT | SERIAL | WUI.

#[global] Instance State_eq_dec : EqDecision State.
Proof. solve_decision. Defined.

#[global] Instance Source_eq_dec : EqDecision Source.
Proof. solve_decision. Defined.

Definition State_to_nat (x : State) : nat :=
  match x with
  | READY => 0 | BUSY => 1 | PRINTING => 2 | PAUSED => 3
  | FINISHED => 4 | ATTENTION => 5 | ERROR => 6
  end.

Definition State_of_nat (n : nat) : State :=
  match n with
  | 0 => READY | 1 => BUSY | 2 => PRINTING | 3 => PAUSED
  | 4 => FINISHED | 5 => ATTENTION | _ => ERROR
  end.

#[global] Instance State_countable : Countable State :=
  inj_countable' State_to_nat State_of_nat
    (λ x, match x with
          | READY | BUSY | PRINTING | PAUSED | FINISHED | ATTENTION | ERROR =>
              eq_refl
          end).

End Const.

Export Const.

(** ** The expected state change ([class StateChange]) *)

(** A Python [Dict[State, Union[Source, None]]]: a key may be present and
    carry [None]. *)
Abbreviation SourceDict := (gmap State (option Source)).

Record StateChange : Type := mkStateChange {
  command_id : option Z;
  to_states : SourceDict;
  from_states : SourceDict;
  default_source : option Source
}.

(** [StateChange.__init__]: a dictionary that is not given is the empty
    one. *)
Definition StateChange_init (command_id : option Z)
    (to_states from_states : option SourceDict)
    (default_source : option Source) : StateChange :=
  {| command_id := command_id;
     to_states := match to_states with Some d => d | None => ∅ end;
     from_states := match from_states with Some d => d | None => ∅ end;
     default_source := default_source |}.

(** [key in d] *)
Definition dict_in (key : State) (d : SourceDict) : bool :=
  match d !! key with Some _ => true | None => false end.

(** [d[key]], read only under a successful [key in d] test: the [KeyError]
    branch is never taken and is given the value [None] here. *)
Definition dict_get (d : SourceDict) (key : State) : option Source :=
  match d !! key with Some v => v | None => None end.

(** ** The manager's data *)

(** [self.data] ([model.state_manager]). *)
Record StateManagerData : Type := mkData {
  base_state : State;
  printing_state : option State;
  override_state : option State;
  last_state : State;
  current_state : State;
  progress : option Z
}.

(** The [StateManager] object: [self.data], the part of [self.model] that
    [sd_printing_handler] reads ([model.file_printer.printing]) and the
    expectation [self.expected_state_change]. *)
Record StateManager : Type := mkStateManager {
  data : StateManagerData;
  file_printer_printing : bool;
  expected_state_change : option StateChange
}.

Definition set_data (f : StateManagerData → StateManagerData)
    (s : StateManager) : StateManager :=
  {| data := f (data s);
     file_printer_printing := file_printer_printing s;
     expected_state_change := expected_state_change s |}.

Definition set_base_state (v : State) (d : StateManagerData) :=
  {| base_state := v; printing_state := printing_state d;
     override_state := override_state d; last_state := last_state d;
     current_state := current_state d; progress := progress d |}.

Definition set_printing_state (v : option State) (d : StateManagerData) :=
  {| base_state := base_state d; printing_state := v;
     override_state := override_state d; last_state := last_state d;
     current_state := current_state d; progress := progress d |}.

Definition set_override_state (v : option State) (d : StateManagerData) :=
  {| base_state := base_state d; printing_state := printing_state d;
     override_state := v; last_state := last_state d;
     current_state := current_state d; progress := progress d |}.

Definition set_last_state (v : State) (d : StateManagerData) :=
  {| base_state := base_state d; printing_state := printing_state d;
     override_state := override_state d; last_state := v;
     current_state := current_state d; progress := progress d |}.

Definition set_current_state (v : State) (d : StateManagerData) :=
  {| base_state := base_state d; printing_state := printing_state d;
     override_state := override_state d; last_state := last_state d;
     current_state := v; progress := progress d |}.

Definition set_progress (v : option Z) (d : StateManagerData) :=
  {| base_state := base_state d; printing_state := printing_state d;
     override_state := override_state d; last_state := last_state d;
     current_state := current_state d; progress := v |}.

Definition set_expected_state_change (v : option StateChange)
    (s : StateManager) : StateManager :=
  {| data := data s;
     file_printer_printing := file_printer_printing s;
     expected_state_change := v |}.

(** ** Signals *)

(** One [Signal.send(self, **kwargs)].  The first argument of [send] is the
    sender: receivers are called synchronously with the manager itself, so
    the record kept here is the manager as it is when the signal goes out. *)
Inductive Sent : Type :=
  | pre_state_change (sender : StateManager) (command_id : option Z)
  | state_changed (sender : StateManager) (from_state to_state : State)
      (command_id : option Z) (source : option Source)
  | post_state_change (sender : StateManager).

Definition sender_of (e : Sent) : StateManager :=
  match e with
  | pre_state_change s _ => s
  | state_changed s _ _ _ _ => s
  | post_state_change s => s
  end.

(** The keyword arguments alone, for statements that do not look at the
    sender. *)
Inductive Payload : Type :=
  | PreChange (command_id : option Z)
  | Changed (from_state to_state : State)
      (command_id : option Z) (source : option Source)
  | PostChange.

Definition payload_of (e : Sent) : Payload :=
  match e with
  | pre_state_change _ c => PreChange c
  | state_changed _ f t c src => Changed f t c src
  | post_state_change _ => PostChange
  end.

(** ** The monad of methods *)

Definition M (A : Type) : Type := StateManager → A * StateManager * list Sent.

#[global] Instance M_ret : MRet M := λ A a s, (a, s, []).

#[global] Instance M_bind : MBind M := λ A B f m s,
  let '(a, s1, t1) := m s in
  let '(b, s2, t2) := f a s1 in
  (b, s2, t1 ++ t2).

Definition gets {A} (f : StateManager → A) : M A := λ s, (f s, s, []).

Definition modify (f : StateManager → StateManager) : M unit :=
  λ s, (tt, f s, []).

Definition send (mk : StateManager → Sent) : M unit :=
  λ s, (tt, s, [mk s]).

(** What a method leaves behind. *)
Definition state_after {A} (m : M A) (s : StateManager) : StateManager :=
  snd (fst (m s)).

Definition signals_of {A} (m : M A) (s : StateManager) : list Sent :=
  snd (m s).

Definition result_of {A} (m : M A) (s : StateManager) : A :=
  fst (fst (m s)).

(** ** Methods of [StateManager] *)

(** [StateManager.__init__], given what the model holds for the fields the
    constructor does not assign. *)
Definition StateManager_init (progress0 : option Z) (file_printing : bool)
    : StateManager :=
  let d0 := {| base_state := READY; printing_state := None;
               override_state := None; last_state := READY;
               current_state := READY; progress := progress0 |} in
  {| data := d0; file_printer_printing := file_printing;
     expected_state_change := None |}.

Definition get_state (s : StateManager) : State :=
  match override_state (data s) with
  | Some o => o
  | None =>
      match printing_state (data s) with
      | Some p => p
      | None => base_state (data s)
      end
  end.

Definition expect_change (change : StateChange) : M unit :=
  modify (set_expected_state_change (Some change)).

Definition stop_expecting_change : M unit :=
  modify (set_expected_state_change None).

Definition is_expected (s : StateManager) : bool :=
  match expected_state_change s with
  | Some state_change =>
      let expected_to :=
        dict_in (current_state (data s)) (to_states state_change) in
      let expected_from :=
        dict_in (last_state (data s)) (from_states state_change) in
      let has_default_source :=
        bool_decide (default_source state_change ≠ None) in
      expected_to || expected_from || has_default_source
  | None => false
  end.

(** [next(item for item in items if item is not None)], with the
    [StopIteration] handler's value when nothing is left. *)
Definition first_not_none (items : list (option Source)) : option Source :=
  match filter (λ item, item ≠ None) items with
  | item :: _ => item
  | [] => None
  end.

Definition get_expected_source (s : StateManager) : option Source :=
  match expected_state_change s with
  | None => None
  | Some state_change =>
      let source_from :=
        if dict_in (last_state (data s)) (from_states state_change)
        then dict_get (from_states state_change) (last_state (data s))
        else None in
      let source_to :=
        if dict_in (current_state (data s)) (to_states state_change)
        then dict_get (to_states state_change) (current_state (data s))
        else None in
      let source :=
        if bool_decide (source_from ≠ None) && bool_decide (source_to ≠ None)
           && bool_decide (source_to ≠ source_from)
        then source_from
        else first_not_none [source_from; source_to] in
      if bool_decide (source = None) then default_source state_change
      else source
  end.

(** The two locals [command_id] and [source] that [state_may_have_changed]
    fills in between the update of the history and the signals. *)
Definition attribution (s : StateManager) : option Z * option Source :=
  if is_expected s then
    let command_id :=
      match expected_state_change s with
      | Some state_change =>
          if bool_decide (command_id state_change ≠ None)
          then command_id state_change else None
      | None => None
      end in
    (command_id, get_expected_source s)
  else (None, None).

Definition state_may_have_changed : M unit :=
  s ← gets id;
  if bool_decide (get_state s ≠ current_state (data s)) then
    modify (λ s, set_data (set_last_state (current_state (data s))) s);;
    modify (λ s, set_data (set_current_state (get_state s)) s);;
    '(command_id, source) ← gets attribution;
    modify (set_expected_state_change None);;
    send (λ s, pre_state_change s command_id);;
    send (λ s, state_changed s (last_state (data s)) (current_state (data s))
                 command_id source);;
    send post_state_change
  else mret tt.

(** The decorator [state_influencer(state_change)(func)]; the lock is held
    for the whole body, which is therefore one uninterrupted run. *)
Definition state_influencer (state_change : option StateChange)
    (func : M unit) : M unit :=
  s ← gets id;
  has_set_expected_change ←
    match expected_state_change s, state_change with
    | None, Some change => expect_change change;; mret true
    | _, _ => mret false
    end;
  func;;
  state_may_have_changed;;
  if has_set_expected_change : bool then stop_expecting_change else mret tt.

(** *** State changing methods *)

Definition printing_default : StateChange :=
  StateChange_init None (Some {[ PRINTING := Some USER ]}) None None.

Definition printing_body : M unit :=
  s ← gets id;
  if bool_decide (printing_state (data s) = None)
  then modify (set_data (set_printing_state (Some PRINTING)))
  else mret tt.

Definition printing : M unit :=
  state_influencer (Some printing_default) printing_body.

Definition not_printing_default : StateChange :=
  StateChange_init None None
    (Some (<[ PRINTING := Some MARLIN ]>
           (<[ PAUSED := Some MARLIN ]> {[ FINISHED := Some MARLIN ]})))
    None.

Definition not_printing_body : M unit :=
  s ← gets id;
  if bool_decide (printing_state (data s) ≠ None)
  then modify (set_data (set_printing_state None))
  else mret tt.

Definition not_printing : M unit :=
  state_influencer (Some not_printing_default) not_printing_body.

Definition finished_default : StateChange :=
  StateChange_init None (Some {[ FINISHED := Some MARLIN ]}) None None.

Definition finished_body : M unit :=
  s ← gets id;
  if bool_decide (printing_state (data s) = Some PRINTING)
  then modify (set_data (set_printing_state (Some FINISHED)))
  else mret tt.

Definition finished : M unit :=
  state_influencer (Some finished_default) finished_body.

Definition busy_default : StateChange :=
  StateChange_init None (Some {[ BUSY := Some MARLIN ]}) None None.

Definition busy_body : M unit :=
  s ← gets id;
  if bool_decide (base_state (data s) = READY)
  then modify (set_data (set_base_state BUSY))
  else mret tt.

Definition busy : M unit :=
  state_influencer (Some busy_default) busy_body.

Definition paused_default : StateChange :=
  StateChange_init None (Some {[ PAUSED := Some USER ]}) None None.

Definition paused_body : M unit :=
  s ← gets id;
  if bool_decide (printing_state (data s) = Some PRINTING)
  then modify (set_data (set_printing_state (Some PAUSED)))
  else mret tt.

Definition paused : M unit :=
  state_influencer (Some paused_default) paused_body.

Definition resumed_default : StateChange :=
  StateChange_init None (Some {[ PRINTING := Some USER ]}) None None.

Definition resumed_body : M unit :=
  s ← gets id;
  if bool_decide (printing_state (data s) = Some PAUSED)
  then modify (set_data (set_printing_state (Some PRINTING)))
  else mret tt.

Definition resumed : M unit :=
  state_influencer (Some resumed_default) resumed_body.

Definition ok_default : StateChange :=
  StateChange_init None
    (Some {[ READY := Some MARLIN ]})
    (Some (<[ ATTENTION := Some USER ]>
           (<[ ERROR := Some USER ]> {[ BUSY := Some HW ]})))
    None.

Definition ok_body : M unit :=
  s ← gets id;
  (if bool_decide (base_state (data s) = BUSY)
   then modify (set_data (set_base_state READY)) else mret tt);;
  s ← gets id;
  (if bool_decide (printing_state (data s) = Some FINISHED)
   then modify (set_data (set_printing_state None)) else mret tt);;
  s ← gets id;
  if bool_decide (override_state (data s) ≠ None)
  then modify (set_data (set_override_state None))
  else mret tt.

Definition ok : M unit :=
  state_influencer (Some ok_default) ok_body.

Definition attention_default : StateChange :=
  StateChange_init None (Some {[ ATTENTION := Some USER ]}) None None.

Definition attention_body : M unit :=
  modify (set_data (set_override_state (Some ATTENTION))).

Definition attention : M unit :=
  state_influencer (Some attention_default) attention_body.

Definition error_default : StateChange :=
  StateChange_init None (Some {[ ERROR := Some WUI ]}) None None.

Definition error_body : M unit :=
  modify (set_data (set_override_state (Some ERROR))).

Definition error : M unit :=
  state_influencer (Some error_default) error_body.

Definition serial_error_default : StateChange :=
  StateChange_init None (Some {[ ERROR := Some SERIAL ]}) None None.

Definition serial_error_body : M unit :=
  modify (set_data (set_override_state (Some ERROR))).

Definition serial_error : M unit :=
  state_influencer (Some serial_error_default) serial_error_body.

Definition serial_error_resolved_default : StateChange :=
  StateChange_init None (Some {[ READY := Some SERIAL ]}) None None.

Definition serial_error_resolved_body : M unit :=
  s ← gets id;
  if bool_decide (override_state (data s) = Some ERROR)
  then modify (set_data (set_override_state None))
  else mret tt.

Definition serial_error_resolved : M unit :=
  state_influencer (Some serial_error_resolved_default)
    serial_error_resolved_body.

(** *** Printer output handlers *)

(** [print_info_handler]: [groups[0]] is the progress, already an integer
    once [int()] has read it. *)
Definition print_info_handler (group0 : Z) : M unit :=
  modify (set_data (set_progress (Some group0))).

(** [sd_printing_handler]: [group0] is [match.groups()[0]], [None] when the
    optional group did not take part in the match. *)
Definition sd_printing_handler (group0 : option string) : M unit :=
  s ← gets id;
  let is_printing :=
    bool_decide (group0 = None) || file_printer_printing s in
  let is_paused := bool_decide (printing_state (data s) = Some PAUSED) in
  if negb is_printing && negb is_paused then not_printing else printing.

Definition file_printer_started_printing : M unit :=
  s ← gets id;
  if file_printer_printing s
     && bool_decide (printing_state (data s) ≠ Some PRINTING)
  then
    expect_change
      (StateChange_init None (Some {[ PRINTING := Some CONNECT ]}) None None);;
    printing
  else mret tt.

Definition file_printer_stopped_printing : M unit :=
  s ← gets id;
  if bool_decide (progress (data s) = Some 100%Z)
  then
    expect_change
      (StateChange_init None (Some {[ FINISHED := Some MARLIN ]}) None None);;
    finished
  else mret tt.

(** ** The eleven decorated methods as one family *)

Inductive Operation : Set :=
  | op_printing | op_not_printing | op_finished | op_busy | op_paused
  | op_resumed | op_ok | op_attention | op_error | op_serial_error
  | op_serial_error_resolved.

Definition default_of (op : Operation) : StateChange :=
  match op with
  | op_printing => printing_default
  | op_not_printing => not_printing_default
  | op_finished => finished_default
  | op_busy => busy_default
  | op_paused => paused_default
  | op_resumed => resumed_default
  | op_ok => ok_default
  | op_attention => attention_default
  | op_error => error_default
  | op_serial_error => serial_error_default
  | op_serial_error_resolved => serial_error_resolved_default
  end.

Definition body_of (op : Operation) : M unit :=
  match op with
  | op_printing => printing_body
  | op_not_printing => not_printing_body
  | op_finished => finished_body
  | op_busy => busy_body
  | op_paused => paused_body
  | op_resumed => resumed_body
  | op_ok => ok_body
  | op_attention => attention_body
  | op_error => error_body
  | op_serial_error => serial_error_body
  | op_serial_error_resolved => serial_error_resolved_body
  end.

Definition run (op : Operation) : M unit :=
  match op with
  | op_printing => printing
  | op_not_printing => not_printing
  | op_finished => finished
  | op_busy => busy
  | op_paused => paused
  | op_resumed => resumed
  | op_ok => ok
  | op_attention => attention
  | op_error => error
  | op_serial_error => serial_error
  | op_serial_error_resolved => serial_error_resolved
  end.

(** The manager once [state_may_have_changed] has moved the history on:
    [last_state] takes the old [current_state], [current_state] the value
    of [get_state]. *)
Definition shift_history (s : StateManager) : StateManager :=
  set_data (set_current_state (get_state s))
    (set_data (set_last_state (current_state (data s))) s).

(** The three layers, which is all [get_state] reads. *)
Definition layers (s : StateManager) : State * option State * option State :=
  (base_state (data s), printing_state (data s), override_state (data s)).

(** What the body of a decorated method does to [self.data]. *)
Definition body_effect (op : Operation)
    (d : StateManagerData) : StateManagerData :=
  match op with
  | op_printing =>
      if bool_decide (printing_state d = None)
      then set_printing_state (Some PRINTING) d else d
  | op_not_printing =>
      if bool_decide (printing_state d ≠ None)
      then set_printing_state None d else d
  | op_finished =>
      if bool_decide (printing_state d = Some PRINTING)
      then set_printing_state (Some FINISHED) d else d
  | op_busy =>
      if bool_decide (base_state d = READY) then set_base_state BUSY d else d
  | op_paused =>
      if bool_decide (printing_state d = Some PRINTING)
      then set_printing_state (Some PAUSED) d else d
  | op_resumed =>
      if bool_decide (printing_state d = Some PAUSED)
      then set_printing_state (Some PRINTING) d else d
  | op_ok =>
      let d1 := if bool_decide (base_state d = BUSY)
                then set_base_state READY d else d in
      let d2 := if bool_decide (printing_state d1 = Some FINISHED)
                then set_printing_state None d1 else d1 in
      if bool_decide (override_state d2 ≠ None)
      then set_override_state None d2 else d2
  | op_attention => set_override_state (Some ATTENTION) d
  | op_error | op_serial_error => set_override_state (Some ERROR) d
  | op_serial_error_resolved =>
      if bool_decide (override_state d = Some ERROR)
      then set_override_state None d else d
  end.

(** ** Definitions used in the statements *)

(** What the decorator does to the expectation before the body runs. *)
Definition with_default (state_change : option StateChange)
    (s : StateManager) : StateManager :=
  match expected_state_change s, state_change with
  | None, Some change => set_expected_state_change (Some change) s
  | _, _ => s
  end.

(** Has the decorator itself set the expectation? *)
Definition pushes_default (state_change : option StateChange)
    (s : StateManager) : bool :=
  match expected_state_change s, state_change with
  | None, Some _ => true
  | _, _ => false
  end.

Inductive Layer : Set := Override | Activity | Base.

(** The value a layer holds, if it holds one. *)
Definition layer_value (l : Layer) (s : StateManager) : option State :=
  match l with
  | Override => override_state (data s)
  | Activity => printing_state (data s)
  | Base => Some (base_state (data s))
  end.

(** The layer is set and every layer above it is unset. *)
Definition contributes (l : Layer) (s : StateManager) : Prop :=
  match l with
  | Override => override_state (data s) ≠ None
  | Activity =>
      override_state (data s) = None ∧ printing_state (data s) ≠ None
  | Base => override_state (data s) = None ∧ printing_state (data s) = None
  end.

(** The source a dictionary gives for a key: empty when the key is absent,
    and also when the key is present with the value [None]. *)
Definition source_at (d : SourceDict) (key : State) : option Source :=
  d !! key ≫= id.

(** The manager as [ok] finds it in [state_may_have_changed] after a
    [busy]: the history already reads BUSY, READY and the default of [ok] is
    pending. *)
Definition ok_after_busy : StateManager :=
  {| data := {| base_state := READY; printing_state := None;
                override_state := None; last_state := BUSY;
                current_state := READY; progress := None |};
     file_printer_printing := false;
     expected_state_change := Some ok_default |}.

(** The payloads of the three signals of one transition. *)
Definition transition_payloads (from_state to_state : State)
    (command_id : option Z) (source : option Source) : list Payload :=
  [ PreChange command_id;
    Changed from_state to_state command_id source;
    PostChange ].

(** The manager inside [busy], between the body and
    [state_may_have_changed]: the base layer is BUSY, the history is not
    updated yet and the default of [busy] is pending. *)
Definition busy_pending : StateManager :=
  {| data := {| base_state := BUSY; printing_state := None;
                override_state := None; last_state := READY;
                current_state := READY; progress := None |};
     file_printer_printing := false;
     expected_state_change := Some busy_default |}.

(** A caller announced command 42, expected to end the print through the
    Connect service, while no print is running. *)
Definition caller_descriptor : StateChange :=
  StateChange_init (Some 42%Z) (Some {[ FINISHED := Some CONNECT ]})
    None None.

Definition caller_pushed : StateManager :=
  set_expected_state_change (Some caller_descriptor)
    (StateManager_init None false).

(** Two expectations for the same transition, from two commands. *)
Definition first_descriptor : StateChange :=
  StateChange_init (Some 1%Z) (Some {[ BUSY := Some CONNECT ]}) None None.

Definition second_descriptor : StateChange :=
  StateChange_init (Some 2%Z) (Some {[ BUSY := Some WUI ]}) None None.

Definition first_pending : StateManager :=
  set_expected_state_change (Some first_descriptor)
    (StateManager_init None false).

(** The line says that the printer is not printing from the SD card, and
    no file is being printed either. *)
Definition reports_not_printing (group0 : option string)
    (s : StateManager) : Prop :=
  group0 ≠ None ∧ file_printer_printing s = false.

(** A print that was paused at 37 percent. *)
Definition paused_print : StateManager :=
  {| data := {| base_state := READY; printing_state := Some PAUSED;
                override_state := None; last_state := PRINTING;
                current_state := PAUSED; progress := Some 37%Z |};
     file_printer_printing := false;
     expected_state_change := None |}.

(** A descriptor for command 7 that names BUSY as a target but gives no
    source for it, and has no default source. *)
Definition sourceless_descriptor : StateChange :=
  StateChange_init (Some 7%Z) (Some {[ BUSY := None ]}) None None.

(** ** Calls from the outside *)

(** [model.file_printer.printing] belongs to the file printer, which sets
    it when a print from a file starts or ends. *)
Definition set_file_printer_printing (v : bool)
    (s : StateManager) : StateManager :=
  {| data := data s;
     file_printer_printing := v;
     expected_state_change := expected_state_change s |}.

(** What other components do with a manager: the serial reader calls the
    registered handlers, the command tracker announces expectations, the
    file printer signals a start or a stop and owns its own flag. *)
Inductive Call : Type :=
  | call_method (op : Operation)
  | call_expect_change (change : StateChange)
  | call_stop_expecting_change
  | call_print_info_handler (group0 : Z)
  | call_sd_printing_handler (group0 : option string)
  | call_file_printer_started_printing
  | call_file_printer_stopped_printing
  | file_printer_sets_printing (v : bool).

Definition run_call (c : Call) : M unit :=
  match c with
  | call_method op => run op
  | call_expect_change change => expect_change change
  | call_stop_expecting_change => stop_expecting_change
  | call_print_info_handler group0 => print_info_handler group0
  | call_sd_printing_handler group0 => sd_printing_handler group0
  | call_file_printer_started_printing => file_printer_started_printing
  | call_file_printer_stopped_printing => file_printer_stopped_printing
  | file_printer_sets_printing v => modify (set_file_printer_printing v)
  end.

Fixpoint run_calls (cs : list Call) : M unit :=
  match cs with
  | [] => mret tt
  | c :: cs => run_call c;; run_calls cs
  end.

(** The values each layer is ever given by the methods. *)
Definition layers_in_domain (s : StateManager) : bool :=
  match base_state (data s) with READY | BUSY => true | _ => false end
  && match printing_state (data s) with
     | None | Some PRINTING | Some PAUSED | Some FINISHED => true
     | _ => false
     end
  && match override_state (data s) with
     | None | Some ATTENTION | Some ERROR => true
     | _ => false
     end.

(** The recorded [current_state] is the reportable state. *)
Definition in_sync (s : StateManager) : Prop :=
  current_state (data s) = get_state s.

(** A trace of signals made of whole transitions: pre-change, changed and
    post-change, the first two with one command id, each transition leaving
    the state the one before it reached, and never a transition from a
    state to itself. *)
Fixpoint well_chained (start : State) (trace : list Payload) : Prop :=
  match trace with
  | [] => True
  | PreChange c :: Changed f t c' _ :: PostChange :: rest =>
      c = c' ∧ f = start ∧ f ≠ t ∧ well_chained t rest
  | _ => False
  end.

(** The state the last transition of a trace reached. *)
Fixpoint reported (start : State) (trace : list Payload) : State :=
  match trace with
  | [] => start
  | Changed _ t _ _ :: rest => reported t rest
  | _ :: rest => reported start rest
  end.

(** The methods that leave the override layer alone. *)
Definition keeps_override (op : Operation) : bool :=
  match op with
  | op_printing | op_not_printing | op_finished | op_busy | op_paused
  | op_resumed => true
  | _ => false
  end.

(** What shows below the override layer. *)
Definition underlying_state (s : StateManager) : State :=
  match printing_state (data s) with
  | Some p => p
  | None => base_state (data s)
  end.

(** [printing] as [sd_printing_handler] computes it from the line and the
    file printer. *)
Definition telemetry_printing (group0 : option string)
    (s : StateManager) : bool :=
  bool_decide (group0 = None) || file_printer_printing s.

(** The expectations the two file printer handlers announce. *)
Definition file_started_descriptor : StateChange :=
  StateChange_init None (Some {[ PRINTING := Some CONNECT ]}) None None.

Definition file_stopped_descriptor : StateChange :=
  StateChange_init None (Some {[ FINISHED := Some MARLIN ]}) None None.

(** A print from a file is running, the printer still reports READY. *)
Definition file_print_starting : StateManager :=
  set_file_printer_printing true (StateManager_init None false).

(** A paused print, seen while the file printer is printing. *)
Definition file_print_paused : StateManager :=
  set_file_printer_printing true paused_print.

(** A print that has reached 100 percent. *)
Definition print_complete : StateManager :=
  {| data := {| base_state := READY; printing_state := Some PRINTING;
                override_state := None; last_state := READY;
                current_state := PRINTING; progress := Some 100%Z |};
     file_printer_printing := true;
     expected_state_change := None |}.

(** An error raised during a print. *)
Definition error_while_printing : StateManager :=
  {| data := {| base_state := READY; printing_state := Some PRINTING;
                override_state := Some ERROR; last_state := PRINTING;
                current_state := ERROR; progress := Some 12%Z |};
     file_printer_printing := false;
     expected_state_change := None |}.

(** A descriptor that names no state and has a default source. *)
Definition default_only_descriptor : StateChange :=
  StateChange_init (Some 5%Z) None None (Some CONNECT).

(** The manager with that descriptor pending. *)
Definition default_only_pending : StateManager :=
  set_expected_state_change (Some default_only_descriptor)
    (StateManager_init None false).

(** Case analysis on a manager whose layers are in their domains and whose
    history is in sync: the layers become concrete and [current_state]
    becomes the reportable state. *)
Ltac layer_cases s Hdom Hsync :=
  destruct s as [[b p o l c pr] fp e];
  unfold in_sync, get_state in Hsync; unfold layers_in_domain in Hdom;
  cbn in Hsync, Hdom; subst c;
  destruct b; try discriminate Hdom;
  destruct p as [[]|]; try discriminate Hdom;
  destruct o as [[]|]; try discriminate Hdom;
  clear Hdom.

(** * Properties *)

Section Methods.

Implicit Types (s : StateManager) (d : StateChange) (op : Operation).

Lemma run_unfold op :
  run op = state_influencer (Some (default_of op)) (body_of op).
Proof. by destruct op. Qed.

(** A body rewrites the data and sends nothing. *)
Lemma body_of_run op s : body_of op s = (tt, set_data (body_effect op) s, []).
Proof.
  destruct s as [dt fp e].
  destruct op; cbv [body_of body_effect printing_body not_printing_body
    finished_body busy_body paused_body resumed_body ok_body attention_body
    error_body serial_error_body serial_error_resolved_body
    mbind M_bind mret M_ret gets modify id set_data data].
  all: repeat case_bool_decide; try done; try congruence.
Qed.

(** [state_may_have_changed] in closed form.  When the reportable state
    moved, the attribution is computed on the shifted history with the
    expectation still in place, and the signals go out from a manager whose
    expectation is already gone. *)
Lemma state_may_have_changed_run s :
  state_may_have_changed s =
    if bool_decide (get_state s ≠ current_state (data s)) then
      let s1 := shift_history s in
      let s2 := set_expected_state_change None s1 in
      (tt, s2,
       [ pre_state_change s2 (attribution s1).1;
         state_changed s2 (current_state (data s)) (get_state s)
           (attribution s1).1 (attribution s1).2;
         post_state_change s2 ])
    else (tt, s, []).
Proof.
  unfold state_may_have_changed.
  cbv [mbind M_bind mret M_ret gets modify send id].
  case_bool_decide as Hne; [|done].
  replace (set_data _ (set_data _ s)) with (shift_history s)
    by by destruct s as [[b p o l c pr] fp e].
  destruct (attribution (shift_history s)) as [cid src].
  by destruct s as [[b p o l c pr] fp e].
Qed.

(** The decorator in closed form, for a body that rewrites the data. *)
Lemma state_influencer_run state_change func f s :
  (∀ s', func s' = (tt, set_data f s', [])) →
  state_influencer state_change func s =
    let s1 := set_data f (with_default state_change s) in
    let '(_, s2, sent) := state_may_have_changed s1 in
    (tt,
     if pushes_default state_change s
     then set_expected_state_change None s2 else s2,
     sent).
Proof.
  intros Hfunc. unfold state_influencer, with_default, pushes_default.
  cbv [mbind M_bind mret M_ret gets id expect_change stop_expecting_change
       modify].
  destruct (expected_state_change s) as [pending|] eqn:Hp;
    [|destruct state_change as [change|]]; rewrite Hfunc.
  all: destruct (state_may_have_changed _) as [[[] s2] sent]; simpl.
  all: by rewrite ?app_nil_r.
Qed.

(** The decorated methods in closed form. *)
Lemma run_closed op s :
  run op s =
    let s1 := set_data (body_effect op)
                (with_default (Some (default_of op)) s) in
    if bool_decide (get_state s1 ≠ current_state (data s1)) then
      let s2 := shift_history s1 in
      let s3 := set_expected_state_change None s2 in
      (tt, s3,
       [ pre_state_change s3 (attribution s2).1;
         state_changed s3 (current_state (data s1)) (get_state s1)
           (attribution s2).1 (attribution s2).2;
         post_state_change s3 ])
    else
      (tt,
       if pushes_default (Some (default_of op)) s
       then set_expected_state_change None s1 else s1,
       []).
Proof.
  rewrite run_unfold.
  rewrite (state_influencer_run _ _ (body_effect op)) by apply body_of_run.
  cbv zeta. rewrite state_may_have_changed_run.
  case_bool_decide; [|done].
  cbv zeta. by destruct (pushes_default _ _).
Qed.

End Methods.

(** ** The layered state: [get_state] *)

(** C4. The reportable state is the override layer when that is set, else
    the activity layer when that is set, else the base layer; and there is
    exactly one layer that is set with all layers above it unset, whose
    value is the reportable state. *)
Theorem get_state_reduction (s : StateManager) :
  (∀ o, override_state (data s) = Some o → get_state s = o) ∧
  (∀ p, override_state (data s) = None →
        printing_state (data s) = Some p → get_state s = p) ∧
  (override_state (data s) = None → printing_state (data s) = None →
     get_state s = base_state (data s)) ∧
  (∃ l, contributes l s ∧ layer_value l s = Some (get_state s) ∧
        ∀ l', contributes l' s → l' = l).
Proof.
  unfold get_state.
  destruct s as [[b p o l c pr] fp e]; simpl.
  repeat split.
  - by intros o' ->.
  - by intros p' -> ->.
  - by intros -> ->.
  - destruct o as [o'|]; [|destruct p as [p'|]].
    + exists Override. repeat split; [done|].
      intros []; simpl; [done|intros [? _]; done..].
    + exists Activity. repeat split; [done|].
      intros []; simpl; [done|done|intros [_ ?]; done].
    + exists Base. repeat split.
      intros []; simpl; [done|intros [_ ?]; done|done].
Qed.

Lemma get_state_reduction_witness :
  let s := set_data (set_printing_state (Some PAUSED))
             (StateManager_init None false) in
  get_state s = PAUSED.
Proof.
  intros s.
  apply (proj1 (proj2 (get_state_reduction s))); reflexivity.
Defined.

(** ** Attribution: [is_expected] and [get_expected_source] *)

Lemma source_at_dict d key :
  (if dict_in key d then dict_get d key else None) = source_at d key.
Proof. unfold dict_in, dict_get, source_at. by destruct (d !! key). Qed.

(** [get_expected_source] through [source_at]. *)
Lemma get_expected_source_unfold s d :
  expected_state_change s = Some d →
  get_expected_source s =
    let source_from := source_at (from_states d) (last_state (data s)) in
    let source_to := source_at (to_states d) (current_state (data s)) in
    let source :=
      if bool_decide (source_from ≠ None) && bool_decide (source_to ≠ None)
         && bool_decide (source_to ≠ source_from)
      then source_from
      else first_not_none [source_from; source_to] in
    if bool_decide (source = None) then default_source d else source.
Proof.
  intros Hd. unfold get_expected_source. rewrite Hd.
  by rewrite !source_at_dict.
Qed.

(** The sources agree: that one source is attributed. *)
Lemma get_expected_source_agree s d a :
  expected_state_change s = Some d →
  source_at (from_states d) (last_state (data s)) = Some a →
  source_at (to_states d) (current_state (data s)) = Some a →
  get_expected_source s = Some a.
Proof.
  intros Hd Hf Ht. rewrite (get_expected_source_unfold s d Hd).
  cbv zeta. rewrite Hf, Ht.
  rewrite (bool_decide_false (Some a ≠ Some a)) by (intros Hne; by apply Hne).
  by rewrite andb_false_r.
Qed.

(** C3. With [source_from] the source of [from_states] at [last_state] and
    [source_to] the source of [to_states] at [current_state]: when both are
    there and differ the result is [source_from]; when exactly one is there
    the result is that one; when neither is there the result is the default
    source, and nothing when there is no default either. *)
Theorem get_expected_source_cases (s : StateManager) (d : StateChange) :
  expected_state_change s = Some d →
  let source_from := source_at (from_states d) (last_state (data s)) in
  let source_to := source_at (to_states d) (current_state (data s)) in
  (∀ a b, source_from = Some a → source_to = Some b → a ≠ b →
          get_expected_source s = Some a) ∧
  (∀ a, source_from = Some a → source_to = None →
        get_expected_source s = Some a) ∧
  (∀ b, source_from = None → source_to = Some b →
        get_expected_source s = Some b) ∧
  (source_from = None → source_to = None →
     get_expected_source s = default_source d) ∧
  (source_from = None → source_to = None → default_source d = None →
     get_expected_source s = None).
Proof.
  intros Hd source_from source_to.
  rewrite (get_expected_source_unfold s d Hd). cbv zeta.
  fold source_from source_to.
  destruct source_from as [a|], source_to as [b|]; repeat split.
  all: intros; simplify_eq; try done.
  - match goal with
    | Hab : ?x ≠ ?y |- _ =>
        rewrite (bool_decide_true (Some y ≠ Some x)) by congruence
    end.
    done.
Qed.

Lemma get_expected_source_cases_witness :
  get_expected_source ok_after_busy = Some HW.
Proof.
  apply (proj1 (get_expected_source_cases ok_after_busy ok_default eq_refl)
           HW MARLIN); [reflexivity | reflexivity | discriminate].
Defined.

Lemma shift_history_data s :
  last_state (data (shift_history s)) = current_state (data s) ∧
  current_state (data (shift_history s)) = get_state s ∧
  layers (shift_history s) = layers s ∧
  progress (data (shift_history s)) = progress (data s) ∧
  expected_state_change (shift_history s) = expected_state_change s ∧
  get_state (shift_history s) = get_state s.
Proof. by destruct s as [[b p o l c pr] fp e]. Qed.

Lemma dict_in_true key (d : SourceDict) :
  dict_in key d = true ↔ is_Some (d !! key).
Proof.
  unfold dict_in. destruct (d !! key) as [v|]; split; done.
Qed.

(** C8. On a detected transition with a pending descriptor, the transition
    is expected exactly when the new state is a key of [to_states], or the
    old state is a key of [from_states], or there is a default source; the
    command id of the descriptor (and the attributed source) goes into the
    signals in that case, and neither does otherwise.  With no descriptor
    pending both are empty. *)
Theorem expected_transition (s : StateManager) :
  get_state s ≠ current_state (data s) →
  let from_state := current_state (data s) in
  let to_state := get_state s in
  let s1 := shift_history s in
  let sent := map payload_of (signals_of state_may_have_changed s) in
  (∀ d, expected_state_change s = Some d →
     let expected :=
       is_Some (to_states d !! to_state) ∨
       is_Some (from_states d !! from_state) ∨
       default_source d ≠ None in
     (is_expected s1 = true ↔ expected) ∧
     (expected →
        sent = transition_payloads from_state to_state
                 (command_id d) (get_expected_source s1)) ∧
     (¬ expected →
        sent = transition_payloads from_state to_state None None)) ∧
  (expected_state_change s = None →
     is_expected s1 = false ∧
     sent = transition_payloads from_state to_state None None).
Proof.
  intros Hne from_state to_state s1 sent.
  destruct (shift_history_data s) as (Hl & Hc & _ & _ & He & _).
  assert (sent = transition_payloads from_state to_state
                   (attribution s1).1 (attribution s1).2) as Hsent.
  { unfold sent, signals_of. rewrite state_may_have_changed_run.
    by rewrite bool_decide_true. }
  split.
  - intros d Hd expected.
    assert (is_expected s1 = true ↔ expected) as Hexp.
    { unfold is_expected, expected. fold s1 in Hl, Hc, He.
      rewrite He, Hd, Hl, Hc. cbv zeta.
      rewrite !orb_true_iff, !dict_in_true, bool_decide_eq_true.
      tauto. }
    split; [done|]. rewrite Hsent. unfold attribution.
    fold s1 in He. rewrite He, Hd.
    split.
    + intros Hyes%Hexp. rewrite Hyes. simpl.
      by destruct (command_id d).
    + intros Hno. destruct (is_expected s1); [|done].
      by destruct Hno; apply Hexp.
  - intros Hd.
    assert (is_expected s1 = false) as Hexp.
    { unfold is_expected. fold s1 in He. by rewrite He, Hd. }
    split; [done|]. rewrite Hsent. unfold attribution. by rewrite Hexp.
Qed.

Lemma expected_transition_witness :
  is_expected (shift_history busy_pending) = true.
Proof.
  assert (get_state busy_pending ≠ current_state (data busy_pending)) as Hne
    by discriminate.
  apply (proj1 (proj1 (expected_transition busy_pending Hne)
                  busy_default eq_refl)).
  left. by exists (Some MARLIN).
Defined.

(** C5, as the code has it.  When the recomputed state differs from
    [current_state]: the history is shifted, the attribution is computed on
    the shifted history with the expectation still pending, the expectation
    is cleared, and then the pre-change signal (command id), the changed
    signal (from, to, command id, source) and the post-change signal go
    out, in this order, from a manager whose expectation is already empty.
    When the recomputed state is the same, nothing is sent and the manager
    is left as it was. *)
Theorem detect_and_notify (s : StateManager) :
  (get_state s ≠ current_state (data s) →
     let s1 := shift_history s in
     let s2 := set_expected_state_change None s1 in
     last_state (data s1) = current_state (data s) ∧
     current_state (data s1) = get_state s ∧
     expected_state_change s1 = expected_state_change s ∧
     expected_state_change s2 = None ∧
     data s2 = data s1 ∧
     state_may_have_changed s =
       (tt, s2,
        [ pre_state_change s2 (attribution s1).1;
          state_changed s2 (last_state (data s1)) (current_state (data s1))
            (attribution s1).1 (attribution s1).2;
          post_state_change s2 ])) ∧
  (get_state s = current_state (data s) →
     state_may_have_changed s = (tt, s, [])).
Proof.
  rewrite state_may_have_changed_run.
  destruct (shift_history_data s) as (Hl & Hc & _ & _ & He & _).
  split.
  - intros Hne. cbv zeta. rewrite bool_decide_true by done.
    by rewrite Hl, Hc.
  - intros Heq. by rewrite bool_decide_false by (intros Hne; by apply Hne).
Qed.

Lemma detect_and_notify_witness :
  map payload_of (signals_of state_may_have_changed busy_pending) =
    transition_payloads READY BUSY None (Some MARLIN) ∧
  signals_of state_may_have_changed (StateManager_init None false) = [].
Proof.
  split.
  - unfold signals_of.
    rewrite (proj2 (proj2 (proj2 (proj2 (proj2
      (proj1 (detect_and_notify busy_pending)
         ltac:(discriminate))))))).
    reflexivity.
  - unfold signals_of.
    by rewrite (proj2 (detect_and_notify (StateManager_init None false))
                  eq_refl).
Defined.

(** C5 as stated fails: the expectation is pending when the cycle starts,
    yet each of the three signals is sent by a manager whose expectation
    has already been cleared. *)
Lemma expectation_cleared_before_signals :
  expected_state_change busy_pending = Some busy_default ∧
  map (λ e, expected_state_change (sender_of e))
      (signals_of state_may_have_changed busy_pending)
    = [None; None; None].
Proof. split; reflexivity. Qed.

(** ** The expectation across a decorated method *)

(** A body leaves the history and the progress alone. *)
Lemma body_effect_history op (d : StateManagerData) :
  last_state (body_effect op d) = last_state d ∧
  current_state (body_effect op d) = current_state d ∧
  progress (body_effect op d) = progress d.
Proof.
  destruct d as [b p o l c pr].
  destruct op; cbv [body_effect]; simpl; repeat case_bool_decide; done.
Qed.

(** A body reads the layers only. *)
Lemma body_effect_set_history op (d : StateManagerData) l c :
  body_effect op (set_current_state c (set_last_state l d)) =
  set_current_state c (set_last_state l (body_effect op d)).
Proof.
  destruct d as [b p o l0 c0 pr].
  destruct op; cbv [body_effect]; simpl; repeat case_bool_decide; done.
Qed.

(** Running a body a second time changes nothing more. *)
Lemma body_effect_idempotent op (d : StateManagerData) :
  body_effect op (body_effect op d) = body_effect op d.
Proof.
  destruct d as [b p o l c pr].
  destruct op; try reflexivity.
  all: try (destruct p as [[]|]; reflexivity).
  - destruct b; reflexivity.
  - destruct b, p as [[]|], o as [[]|]; reflexivity.
  - destruct o as [[]|]; reflexivity.
Qed.

(** The expectation, the history and the signals of a decorated method. *)
Lemma run_outcome op s :
  let s1 := set_data (body_effect op) s in
  let s' := state_after (run op) s in
  layers s' = layers s1 ∧
  progress (data s') = progress (data s) ∧
  current_state (data s') = get_state s1 ∧
  if bool_decide (get_state s1 ≠ current_state (data s)) then
    last_state (data s') = current_state (data s) ∧
    expected_state_change s' = None ∧
    signals_of (run op) s ≠ []
  else
    last_state (data s') = last_state (data s) ∧
    expected_state_change s' =
      (if pushes_default (Some (default_of op)) s
       then None else expected_state_change s) ∧
    signals_of (run op) s = [].
Proof.
  unfold state_after, signals_of. rewrite run_closed. cbv zeta.
  destruct (body_effect_history op (data s)) as (Hl & Hc & Hp).
  destruct s as [dt fp [pending|]]; simpl in *.
  all: unfold with_default, pushes_default, get_state; simpl; rewrite Hc.
  all: case_bool_decide as Hne; simpl; rewrite ?Hl, ?Hp; repeat split; try done.
  all: by rewrite Hc, Hne.
Qed.

(** C1, as the code has it.  After a decorated method returns the
    expectation is empty when it was empty on entry (the decorator set the
    default and takes it back), and also when the method changed the
    reported state (the detect-and-notify cycle clears it).  An expectation
    a caller set before a method that changes nothing is still pending
    afterwards, and nothing was sent. *)
Theorem expectation_after_operation (op : Operation) (s : StateManager) :
  let s' := state_after (run op) s in
  (expected_state_change s = None → expected_state_change s' = None) ∧
  (current_state (data s') ≠ current_state (data s) →
     expected_state_change s' = None ∧ signals_of (run op) s ≠ []) ∧
  (∀ d, expected_state_change s = Some d →
        current_state (data s') = current_state (data s) →
        expected_state_change s' = Some d ∧ signals_of (run op) s = []).
Proof.
  intros s'. destruct (run_outcome op s) as (_ & _ & Hc & Hrest).
  fold s' in Hc, Hrest. unfold pushes_default in Hrest.
  case_bool_decide as Hne; destruct Hrest as (_ & He & Hs).
  - split; [done|]. split; [done|].
    intros d _ Heq. by rewrite Hc in Heq.
  - split; [|split].
    + intros Hnone. by rewrite He, Hnone.
    + intros Hc'. by rewrite Hc in Hc'.
    + intros d Hd _. by rewrite He, Hd.
Qed.

Lemma expectation_after_operation_witness :
  expected_state_change (state_after (run op_finished) caller_pushed)
    = Some caller_descriptor ∧
  signals_of (run op_finished) caller_pushed = [].
Proof.
  apply (proj2 (proj2 (expectation_after_operation op_finished caller_pushed))
           caller_descriptor); reflexivity.
Defined.

(** C1 as stated fails: [finished] on a manager that is not printing
    changes nothing, and the expectation the caller set is still pending
    when the method has returned. *)
Lemma caller_expectation_survives :
  expected_state_change caller_pushed = Some caller_descriptor ∧
  signals_of finished caller_pushed = [] ∧
  expected_state_change (state_after finished caller_pushed)
    = Some caller_descriptor ∧
  expected_state_change (state_after finished caller_pushed) ≠ None.
Proof. repeat split; try reflexivity. discriminate. Qed.

(** C2 as stated fails for [expect_change]: the second descriptor replaces
    the pending one, and the transition that follows is attributed from the
    second. *)
Lemma second_push_replaces_pending :
  expected_state_change first_pending = Some first_descriptor ∧
  expected_state_change (state_after (expect_change second_descriptor)
                           first_pending) = Some second_descriptor ∧
  map payload_of
      (signals_of (expect_change second_descriptor;; busy) first_pending)
    = transition_payloads READY BUSY (Some 2%Z) (Some WUI).
Proof. repeat split; reflexivity. Qed.

(** C2, as the code has it.  While an expectation is pending a decorated
    method does not set its default: it runs as if it declared none, and a
    transition it causes is attributed from the pending expectation.  A
    call of [expect_change] is not ignored: what it is given replaces the
    pending expectation. *)
Theorem pending_expectation_kept (op : Operation) (s : StateManager)
    (d change : StateChange) :
  expected_state_change s = Some d →
  run op s = state_influencer None (body_of op) s ∧
  (let s1 := shift_history (set_data (body_effect op) s) in
   expected_state_change s1 = Some d ∧
   (signals_of (run op) s = [] ∨
    map payload_of (signals_of (run op) s) =
      transition_payloads (last_state (data s1)) (current_state (data s1))
        (attribution s1).1 (attribution s1).2)) ∧
  expected_state_change (state_after (expect_change change) s) = Some change.
Proof.
  intros Hd. split; [|split; [|done]].
  - rewrite run_unfold.
    rewrite !(state_influencer_run _ _ (body_effect op)) by apply body_of_run.
    unfold with_default, pushes_default. by rewrite Hd.
  - cbv zeta.
    destruct (shift_history_data (set_data (body_effect op) s))
      as (Hl & Hc & _ & _ & He & _).
    split; [by rewrite He|].
    unfold signals_of. rewrite run_closed. cbv zeta.
    unfold with_default. rewrite Hd.
    case_bool_decide; [right|by left].
    by rewrite Hl, Hc.
Qed.

Lemma pending_expectation_kept_witness :
  run op_busy first_pending
    = state_influencer None (body_of op_busy) first_pending.
Proof.
  apply (proj1 (pending_expectation_kept op_busy first_pending
                  first_descriptor second_descriptor eq_refl)).
Defined.

(** ** Idempotence *)

Lemma set_history_same (d : StateManagerData) :
  set_current_state (current_state d) (set_last_state (last_state d) d) = d.
Proof. by destruct d. Qed.

(** The data a decorated method leaves: the body's effect, under a history
    whose [current_state] is the reportable state. *)
Lemma run_data op s :
  ∃ l c,
    data (state_after (run op) s) =
      set_current_state c (set_last_state l (body_effect op (data s))) ∧
    get_state (state_after (run op) s) = c.
Proof.
  unfold state_after. rewrite run_closed. cbv zeta.
  destruct (body_effect_history op (data s)) as (Hl & Hc & _).
  assert (∀ s0, data s0 = data s →
    data (set_data (body_effect op) s0) = body_effect op (data s)) as Hdata
    by (intros s0 Hs0; simpl; by rewrite Hs0).
  assert (data (with_default (Some (default_of op)) s) = data s) as Hwd
    by (unfold with_default; by destruct (expected_state_change s)).
  specialize (Hdata _ Hwd).
  set (s1 := set_data (body_effect op) _) in *. clearbody s1.
  case_bool_decide as Hne.
  - exists (current_state (data s1)), (get_state s1). simpl.
    rewrite Hdata. split; [done|].
    unfold get_state. simpl. by rewrite Hdata.
  - exists (last_state (data s)), (current_state (data s)).
    assert (data s1 = set_current_state (current_state (data s))
              (set_last_state (last_state (data s))
                 (body_effect op (data s)))) as Hs1.
    { rewrite Hdata, <-Hl, <-Hc at 1. by rewrite set_history_same. }
    assert (get_state s1 = current_state (data s)) as Hg
      by (by rewrite Hne, Hdata, Hc).
    by destruct (pushes_default _ _).
Qed.

(** C9. A decorated method called a second time, right after itself,
    leaves the data as the first call left it (the three layers, [last_state] and
    [current_state]) and sends no signal. *)
Theorem operation_idempotent (op : Operation) (s : StateManager) :
  let s1 := state_after (run op) s in
  let s2 := state_after (run op) s1 in
  layers s2 = layers s1 ∧
  last_state (data s2) = last_state (data s1) ∧
  current_state (data s2) = current_state (data s1) ∧
  data s2 = data s1 ∧
  signals_of (run op) s1 = [].
Proof.
  intros s1 s2.
  destruct (run_data op s) as (l & c & Hdata & Hget). fold s1 in Hdata, Hget.
  assert (body_effect op (data s1) = data s1) as Hfix.
  { rewrite Hdata, body_effect_set_history.
    by rewrite body_effect_idempotent. }
  assert (get_state (set_data (body_effect op) s1) = current_state (data s1))
    as Hsame.
  { unfold get_state in *. simpl. rewrite Hfix, Hget.
    rewrite Hdata. by destruct (body_effect op (data s)). }
  destruct (run_outcome op s1) as (Hlay & Hp & Hc & Hrest).
  fold s2 in Hlay, Hp, Hc, Hrest.
  rewrite bool_decide_false in Hrest by (intros Hne; by apply Hne).
  destruct Hrest as (Hl & _ & Hs).
  assert (data s2 = data s1) as Heq.
  { unfold layers in Hlay. simpl in Hlay. rewrite Hfix in Hlay.
    rewrite Hsame in Hc.
    destruct (data s2), (data s1). simpl in *. by simplify_eq. }
  repeat split; try done.
  - unfold layers. by rewrite Heq.
  - by rewrite Heq.
Qed.

(** ** Telemetry while paused *)

(** C6. With the activity layer at PAUSED, a telemetry line that reports
    "not printing" makes the handler call [printing], not [not_printing]:
    the activity layer is still PAUSED afterwards, the reportable state is
    what it was, and so PAUSED whenever it was PAUSED (no override). *)
Theorem paused_is_sticky (group0 : option string) (s : StateManager) :
  printing_state (data s) = Some PAUSED →
  reports_not_printing group0 s →
  let s' := state_after (sd_printing_handler group0) s in
  sd_printing_handler group0 s = printing s ∧
  s' ≠ state_after not_printing s ∧
  layers s' = layers s ∧
  printing_state (data s') = Some PAUSED ∧
  get_state s' = get_state s ∧
  (get_state s = PAUSED → get_state s' = PAUSED).
Proof.
  intros Hp [Hg Hf] s'.
  assert (sd_printing_handler group0 s = printing s) as Hcall.
  { unfold sd_printing_handler. cbv [mbind M_bind gets id].
    rewrite Hf, (bool_decide_true _ Hp), (bool_decide_false _ Hg).
    cbn [negb orb andb].
    by destruct (printing s) as [[[] s2] sent]. }
  assert (body_effect op_printing (data s) = data s) as Hbody.
  { unfold body_effect. rewrite bool_decide_false; [done|]. by rewrite Hp. }
  assert (layers s' = layers s) as Hlay.
  { unfold s', state_after. rewrite Hcall.
    destruct (run_outcome op_printing s) as (Hl & _).
    change (run op_printing) with printing in Hl.
    unfold state_after in Hl. rewrite Hl.
    unfold layers, set_data. cbn [data]. by rewrite Hbody. }
  assert (get_state s' = get_state s) as Hget.
  { unfold layers in Hlay. unfold get_state.
    injection Hlay as Hb Hpr Ho. by rewrite Hb, Hpr, Ho. }
  split; [done|]. split; [|split; [done|split; [|split]]].
  - intros Heq.
    assert (printing_state (data s') = None) as Hnone.
    { rewrite Heq.
      destruct (run_outcome op_not_printing s) as (Hl & _).
      change (run op_not_printing) with not_printing in Hl.
      unfold layers, set_data, body_effect in Hl. cbn [data] in Hl.
      rewrite Hp, bool_decide_true in Hl by done.
      by injection Hl as _ Hpr _. }
    unfold layers in Hlay. injection Hlay as _ Hpr _. congruence.
  - unfold layers in Hlay. injection Hlay as _ Hpr _. congruence.
  - done.
  - intros Hpaused. by rewrite Hget.
Qed.

Lemma paused_is_sticky_witness :
  get_state (state_after (sd_printing_handler (Some "0"%string)) paused_print)
    = PAUSED.
Proof.
  apply (paused_is_sticky (Some "0"%string) paused_print);
    [reflexivity | split; [discriminate | reflexivity] | reflexivity].
Defined.

(** ** Scenarios *)

(** C7. From the initial state [busy] makes the reportable state BUSY and
    the signals carry source MARLIN and no command id; [ok] then makes it
    READY again, and the changed signal carries from BUSY, to READY and
    source HW: the source of [from_states] at BUSY wins over the source of
    [to_states] at READY, which is MARLIN. *)
Theorem busy_then_ok (progress0 : option Z) (file_printing : bool) :
  let s0 := StateManager_init progress0 file_printing in
  let s1 := state_after busy s0 in
  let s2 := state_after ok s1 in
  get_state s0 = READY ∧ layers s0 = (READY, None, None) ∧
  expected_state_change s0 = None ∧
  get_state s1 = BUSY ∧
  map payload_of (signals_of busy s0)
    = transition_payloads READY BUSY None (Some MARLIN) ∧
  get_state s2 = READY ∧
  map payload_of (signals_of ok s1)
    = transition_payloads BUSY READY None (Some HW) ∧
  from_states ok_default !! BUSY = Some (Some HW) ∧
  to_states ok_default !! READY = Some (Some MARLIN).
Proof. repeat split; reflexivity. Qed.

(** C10. There is a pending descriptor, with a key mapped to no source and
    with no default source, under which a transition to that key is
    expected, so that the signals carry the descriptor's command id, while
    the attributed source is empty. *)
Theorem expected_without_source :
  ∃ d : StateChange,
    to_states d !! BUSY = Some None ∧
    default_source d = None ∧
    command_id d = Some 7%Z ∧
    let s := set_expected_state_change (Some d)
               (StateManager_init None false) in
    is_expected (shift_history (state_after busy_body s)) = true ∧
    get_expected_source (shift_history (state_after busy_body s)) = None ∧
    map payload_of (signals_of busy s)
      = transition_payloads READY BUSY (Some 7%Z) None.
Proof. exists sourceless_descriptor. repeat split; reflexivity. Qed.

(** ** Sequences of calls *)

Lemma state_after_seq {A B} (m : M A) (k : M B) (s : StateManager) :
  state_after (m;; k) s = state_after k (state_after m s).
Proof.
  unfold state_after. cbv [mbind M_bind].
  destruct (m s) as [[a s1] t1]. simpl.
  by destruct (k s1) as [[b s2] t2].
Qed.

Lemma signals_of_seq {A B} (m : M A) (k : M B) (s : StateManager) :
  signals_of (m;; k) s = signals_of m s ++ signals_of k (state_after m s).
Proof.
  unfold state_after, signals_of. cbv [mbind M_bind].
  destruct (m s) as [[a s1] t1]. simpl.
  by destruct (k s1) as [[b s2] t2].
Qed.

(** The two handlers that choose a decorated method. *)
Lemma sd_printing_handler_run group0 (s : StateManager) :
  sd_printing_handler group0 s =
    if negb (telemetry_printing group0 s)
       && negb (bool_decide (printing_state (data s) = Some PAUSED))
    then not_printing s else printing s.
Proof.
  unfold sd_printing_handler, telemetry_printing. cbv [mbind M_bind gets id].
  destruct (negb _ && negb _).
  - by destruct (not_printing s) as [[[] s2] sent].
  - by destruct (printing s) as [[[] s2] sent].
Qed.

Lemma file_printer_started_printing_run (s : StateManager) :
  file_printer_started_printing s =
    if file_printer_printing s
       && bool_decide (printing_state (data s) ≠ Some PRINTING)
    then printing (set_expected_state_change (Some file_started_descriptor) s)
    else (tt, s, []).
Proof.
  unfold file_printer_started_printing.
  cbv [mbind M_bind mret M_ret gets id expect_change modify].
  destruct (_ && _); [|done].
  by destruct (printing _) as [[[] s2] sent].
Qed.

Lemma file_printer_stopped_printing_run (s : StateManager) :
  file_printer_stopped_printing s =
    if bool_decide (progress (data s) = Some 100%Z)
    then finished (set_expected_state_change (Some file_stopped_descriptor) s)
    else (tt, s, []).
Proof.
  unfold file_printer_stopped_printing.
  cbv [mbind M_bind mret M_ret gets id expect_change modify].
  destruct (bool_decide _); [|done].
  by destruct (finished _) as [[[] s2] sent].
Qed.

(** Every call either runs one decorated method, perhaps on a manager with
    another expectation, or touches neither the layers nor the history. *)
Lemma run_call_cases (c : Call) (s : StateManager) :
  (∃ op s0, run_call c s = run op s0 ∧ data s0 = data s ∧
            file_printer_printing s0 = file_printer_printing s) ∨
  (signals_of (run_call c) s = [] ∧
   layers (state_after (run_call c) s) = layers s ∧
   last_state (data (state_after (run_call c) s)) = last_state (data s) ∧
   current_state (data (state_after (run_call c) s))
     = current_state (data s)).
Proof.
  unfold state_after, signals_of.
  destruct c as [op|change| |group0|group0| | |v]; simpl.
  - left. by exists op, s.
  - by right.
  - by right.
  - by right.
  - left. rewrite sd_printing_handler_run.
    destruct (_ && _);
      [by exists op_not_printing, s | by exists op_printing, s].
  - rewrite file_printer_started_printing_run.
    destruct (_ && _); [left|by right].
    by exists op_printing,
      (set_expected_state_change (Some file_started_descriptor) s).
  - rewrite file_printer_stopped_printing_run.
    destruct (bool_decide _); [left|by right].
    by exists op_finished,
      (set_expected_state_change (Some file_stopped_descriptor) s).
  - by right.
Qed.

Lemma body_effect_in_domain op (s : StateManager) :
  layers_in_domain s = true →
  layers_in_domain (set_data (body_effect op) s) = true.
Proof.
  destruct s as [[b p o l c pr] fp e]. unfold layers_in_domain. simpl.
  destruct b; try done; destruct p as [[]|]; try done;
    destruct o as [[]|]; try done; by destruct op.
Qed.

Lemma layers_in_domain_layers (s s' : StateManager) :
  layers s' = layers s → layers_in_domain s' = layers_in_domain s.
Proof.
  unfold layers, layers_in_domain. intros [= Hb Hp Ho].
  by rewrite Hb, Hp, Ho.
Qed.

Lemma get_state_layers (s s' : StateManager) :
  layers s' = layers s → get_state s' = get_state s.
Proof.
  unfold layers, get_state. intros [= Hb Hp Ho]. by rewrite Hb, Hp, Ho.
Qed.

(** One call keeps the layers in their domains and the history in sync. *)
Lemma run_call_invariant (c : Call) (s : StateManager) :
  layers_in_domain s = true → in_sync s →
  layers_in_domain (state_after (run_call c) s) = true ∧
  in_sync (state_after (run_call c) s).
Proof.
  intros Hdom Hsync.
  destruct (run_call_cases c s)
    as [(op & s0 & Hrun & Hdata & _)|(_ & Hlay & _ & Hcur)].
  - unfold state_after. rewrite Hrun.
    destruct (run_outcome op s0) as (Hlay & _ & Hcur & _).
    unfold state_after in Hlay, Hcur. split.
    + rewrite (layers_in_domain_layers _ _ Hlay).
      apply body_effect_in_domain.
      rewrite <-Hdom. apply layers_in_domain_layers.
      unfold layers. by rewrite Hdata.
    + unfold in_sync. rewrite Hcur. symmetry. by apply get_state_layers.
  - split.
    + by rewrite (layers_in_domain_layers _ _ Hlay).
    + unfold in_sync. by rewrite Hcur, (get_state_layers _ _ Hlay).
Qed.

(** X1. From a freshly constructed manager, whatever is called in whatever
    order, the base layer is READY or BUSY, the activity layer is unset,
    PRINTING, PAUSED or FINISHED, the override layer is unset, ATTENTION or
    ERROR, and [current_state] is the reportable state. *)
Theorem reachable_invariant (progress0 : option Z) (file_printing : bool)
    (cs : list Call) :
  let s := state_after (run_calls cs)
             (StateManager_init progress0 file_printing) in
  layers_in_domain s = true ∧ in_sync s.
Proof.
  cbv zeta.
  assert (∀ s0, layers_in_domain s0 = true → in_sync s0 →
    layers_in_domain (state_after (run_calls cs) s0) = true ∧
    in_sync (state_after (run_calls cs) s0)) as Hall.
  { induction cs as [|c cs IH]; intros s0 Hdom Hsync; [done|].
    simpl. rewrite state_after_seq.
    destruct (run_call_invariant c s0 Hdom Hsync) as [Hdom' Hsync'].
    by apply IH. }
  by apply Hall.
Qed.

(** A decorated method publishes nothing and keeps [current_state], or
    publishes one transition from the old [current_state] to the new. *)
Lemma run_transition (op : Operation) (s : StateManager) :
  let s' := state_after (run op) s in
  let sent := map payload_of (signals_of (run op) s) in
  (sent = [] ∧ signals_of (run op) s = [] ∧
   current_state (data s') = current_state (data s)) ∨
  (sent = transition_payloads (current_state (data s))
            (current_state (data s'))
            (attribution (shift_history (set_data (body_effect op)
               (with_default (Some (default_of op)) s)))).1
            (attribution (shift_history (set_data (body_effect op)
               (with_default (Some (default_of op)) s)))).2 ∧
   current_state (data s) ≠ current_state (data s')).
Proof.
  cbv zeta. unfold state_after, signals_of. rewrite run_closed. cbv zeta.
  destruct (body_effect_history op (data s)) as (_ & Hc & _).
  assert (data (with_default (Some (default_of op)) s) = data s) as Hwd
    by (unfold with_default; by destruct (expected_state_change s)).
  set (s0 := with_default _ s) in *. clearbody s0.
  assert (current_state (data (set_data (body_effect op) s0))
          = current_state (data s)) as Hcur
    by (unfold set_data; cbn [data]; by rewrite Hwd).
  case_bool_decide as Hne.
  - right. rewrite Hcur in Hne |- *. split; [done|].
    intros Heq. by apply Hne.
  - left. repeat split. by destruct (pushes_default _ _).
Qed.

Lemma run_call_transition (c : Call) (s : StateManager) :
  let s' := state_after (run_call c) s in
  let sent := map payload_of (signals_of (run_call c) s) in
  (sent = [] ∧ current_state (data s') = current_state (data s)) ∨
  (∃ cid src,
     sent = transition_payloads (current_state (data s))
              (current_state (data s')) cid src ∧
     current_state (data s) ≠ current_state (data s')).
Proof.
  cbv zeta.
  destruct (run_call_cases c s)
    as [(op & s0 & Hrun & Hdata & _)|(Hsent & _ & _ & Hcur)].
  - unfold state_after, signals_of. rewrite Hrun.
    destruct (run_transition op s0) as [(Hs & _ & Hc)|(Hs & Hc)];
      unfold state_after, signals_of in Hs, Hc;
      try rewrite Hdata in Hs; try rewrite Hdata in Hc.
    + by left.
    + right. by eexists _, _.
  - left. by rewrite Hsent.
Qed.

(** X2. Whatever is called, in whatever order and from whatever manager,
    the signals published are whole transitions (pre-change, changed,
    post-change, the first two with the same command id); no transition
    goes from a state to itself; the first leaves the manager's
    [current_state] and each later one leaves the state the one before it
    reached; the last state reached is the final [current_state]. *)
Theorem calls_well_chained (cs : list Call) (s : StateManager) :
  let sent := map payload_of (signals_of (run_calls cs) s) in
  well_chained (current_state (data s)) sent ∧
  reported (current_state (data s)) sent
    = current_state (data (state_after (run_calls cs) s)).
Proof.
  cbv zeta. revert s.
  induction cs as [|c cs IH]; intros s; [done|].
  cbn [run_calls].
  rewrite signals_of_seq, state_after_seq, map_app.
  destruct (IH (state_after (run_call c) s)) as [Hchain Hlast].
  destruct (run_call_transition c s) as [[-> Hc]|(cid & src & -> & Hne)].
  - rewrite Hc in Hchain, Hlast. by rewrite app_nil_l.
  - by cbn.
Qed.

(** ** Attribution by the defaults *)

(** X3. With no expectation pending, the default of every decorated method
    but [serial_error_resolved] attributes every transition the method
    publishes: the changed signal carries a source, and no command id. *)
Theorem default_attribution_complete (op : Operation) (s : StateManager) :
  op ≠ op_serial_error_resolved →
  layers_in_domain s = true → in_sync s →
  expected_state_change s = None →
  signals_of (run op) s ≠ [] →
  ∃ src,
    map payload_of (signals_of (run op) s) =
      transition_payloads (current_state (data s))
        (get_state (state_after (run op) s)) None (Some src).
Proof.
  intros Hop Hdom Hsync He Hsent.
  layer_cases s Hdom Hsync.
  all: cbn in He; subst e.
  all: destruct op; try (exfalso; apply Hop; reflexivity).
  all: clear Hop; vm_compute in Hsent.
  all: try (exfalso; apply Hsent; reflexivity).
  all: eexists; vm_compute; reflexivity.
Qed.

Lemma default_attribution_complete_witness :
  ∃ src,
    map payload_of (signals_of busy (StateManager_init None false)) =
      transition_payloads READY BUSY None (Some src).
Proof.
  apply (default_attribution_complete op_busy (StateManager_init None false));
    [discriminate | reflexivity | reflexivity | reflexivity | discriminate].
Defined.

(** X4. [serial_error_resolved] with no expectation pending, on a manager
    in ERROR: the transition it publishes leaves ERROR for the state
    underneath, and its default attributes it to SERIAL only when that
    state is READY; under a print or a busy printer the transition carries
    no source. *)
Theorem serial_error_resolved_attribution (s : StateManager) :
  layers_in_domain s = true → in_sync s →
  expected_state_change s = None →
  override_state (data s) = Some ERROR →
  override_state (data (state_after serial_error_resolved s)) = None ∧
  map payload_of (signals_of serial_error_resolved s) =
    transition_payloads ERROR (underlying_state s) None
      (if bool_decide (underlying_state s = READY) then Some SERIAL
       else None).
Proof.
  intros Hdom Hsync He Ho.
  layer_cases s Hdom Hsync.
  all: cbn in He, Ho; subst e; try discriminate Ho.
  all: split; vm_compute; reflexivity.
Qed.

Lemma serial_error_resolved_attribution_witness :
  map payload_of (signals_of serial_error_resolved error_while_printing) =
    transition_payloads ERROR PRINTING None None.
Proof.
  apply (serial_error_resolved_attribution error_while_printing);
    reflexivity.
Defined.

(** ** Under an override *)

Lemma keeps_override_effect op (d : StateManagerData) :
  keeps_override op = true →
  override_state (body_effect op d) = override_state d.
Proof.
  destruct d as [b p o l c pr].
  destruct op; try discriminate; intros _.
  all: cbv [body_effect]; simpl; by case_bool_decide.
Qed.

(** X5. While the override layer is set, [printing], [not_printing],
    [finished], [busy], [paused] and [resumed] publish nothing: whatever
    they do to the layers below, the reported state stays the override. *)
Theorem override_masks (op : Operation) (s : StateManager) (o : State) :
  keeps_override op = true → in_sync s →
  override_state (data s) = Some o →
  let s' := state_after (run op) s in
  signals_of (run op) s = [] ∧
  override_state (data s') = Some o ∧
  get_state s' = o ∧
  current_state (data s') = o ∧
  last_state (data s') = last_state (data s).
Proof.
  intros Hop Hsync Ho s'.
  destruct (run_outcome op s) as (Hlay & _ & Hcur & Hrest). fold s' in Hlay, Hcur, Hrest.
  assert (override_state (data s') = Some o) as Ho'.
  { unfold layers in Hlay. injection Hlay as _ _ Hov. rewrite Hov.
    unfold set_data. cbn [data].
    by rewrite (keeps_override_effect op _ Hop). }
  assert (get_state s' = o) as Hget by (unfold get_state; by rewrite Ho').
  assert (get_state (set_data (body_effect op) s) = o) as Hget1
    by (rewrite <-Hget; symmetry; by apply get_state_layers).
  assert (current_state (data s) = o) as Hc
    by (unfold in_sync, get_state in Hsync; by rewrite Ho in Hsync).
  rewrite bool_decide_false in Hrest by (rewrite Hget1, Hc; by intros []).
  destruct Hrest as (Hl & _ & Hs).
  by rewrite Hcur, Hget1.
Qed.

Lemma override_masks_witness :
  signals_of paused error_while_printing = [] ∧
  printing_state (data (state_after paused error_while_printing))
    = Some PAUSED.
Proof.
  split; [|reflexivity].
  apply (override_masks op_paused error_while_printing ERROR);
    reflexivity.
Defined.

(** ** [ok] *)

(** X6. After [ok] nothing is left to acknowledge: the override layer is
    unset, the base layer is READY, the activity layer is not FINISHED, and
    the reported state is READY, PRINTING or PAUSED. *)
Theorem ok_acknowledges (s : StateManager) :
  layers_in_domain s = true →
  let s' := state_after ok s in
  override_state (data s') = None ∧
  base_state (data s') = READY ∧
  printing_state (data s') ≠ Some FINISHED ∧
  (get_state s' = READY ∨ get_state s' = PRINTING ∨ get_state s' = PAUSED) ∧
  current_state (data s') = get_state s'.
Proof.
  intros Hdom s'.
  destruct (run_outcome op_ok s) as (Hlay & _ & Hcur & _).
  change (run op_ok) with ok in Hlay, Hcur. fold s' in Hlay, Hcur.
  rewrite Hcur, <-(get_state_layers _ _ Hlay).
  unfold get_state. unfold layers in Hlay. injection Hlay as -> -> ->.
  clear Hcur s'.
  destruct s as [[b p o l c pr] fp e]. unfold layers_in_domain in Hdom.
  cbn in Hdom.
  destruct b; try discriminate Hdom;
    destruct p as [[]|]; try discriminate Hdom;
    destruct o as [[]|]; try discriminate Hdom.
  all: clear Hdom; vm_compute; repeat split; try discriminate; auto.
Qed.

Lemma ok_acknowledges_witness :
  get_state (state_after ok error_while_printing) = READY ∨
  get_state (state_after ok error_while_printing) = PRINTING ∨
  get_state (state_after ok error_while_printing) = PAUSED.
Proof.
  apply (ok_acknowledges error_while_printing). reflexivity.
Defined.

(** X7. [ok] with no expectation pending, on a manager under an override:
    the transition away from ATTENTION or ERROR is always published, and it
    is attributed to USER, whatever state it reaches. *)
Theorem ok_leaves_override (s : StateManager) (over : State) :
  layers_in_domain s = true → in_sync s →
  expected_state_change s = None →
  override_state (data s) = Some over →
  map payload_of (signals_of ok s) =
    transition_payloads over (get_state (state_after ok s)) None (Some USER).
Proof.
  intros Hdom Hsync He Ho.
  layer_cases s Hdom Hsync.
  all: cbn in He, Ho; subst e; try discriminate Ho.
  all: injection Ho as <-; vm_compute; reflexivity.
Qed.

Lemma ok_leaves_override_witness :
  map payload_of (signals_of ok error_while_printing) =
    transition_payloads ERROR PRINTING None (Some USER).
Proof.
  apply (ok_leaves_override error_while_printing ERROR); reflexivity.
Defined.

(** ** Expected and attributed *)

Lemma source_at_Some_in (d : SourceDict) key src :
  source_at d key = Some src → dict_in key d = true.
Proof.
  unfold source_at, dict_in. by destruct (d !! key).
Qed.

(** X8. A source is attributed to expected transitions only: when
    [get_expected_source] gives a source, [is_expected] holds. *)
Theorem source_implies_expected (s : StateManager) :
  get_expected_source s ≠ None → is_expected s = true.
Proof.
  intros Hsrc. unfold is_expected.
  destruct (expected_state_change s) as [d|] eqn:Hd;
    [|by unfold get_expected_source in Hsrc; rewrite Hd in Hsrc].
  rewrite (get_expected_source_unfold s d Hd) in Hsrc. cbv zeta in Hsrc.
  destruct (source_at (from_states d) (last_state (data s)))
    as [a|] eqn:Hfrom.
  { by rewrite (source_at_Some_in _ _ _ Hfrom), orb_true_r. }
  destruct (source_at (to_states d) (current_state (data s)))
    as [b0|] eqn:Hto.
  { by rewrite (source_at_Some_in _ _ _ Hto). }
  cbn in Hsrc. rewrite bool_decide_true by done.
  by rewrite orb_true_r.
Qed.

Lemma source_implies_expected_witness : is_expected ok_after_busy = true.
Proof. apply (source_implies_expected ok_after_busy). discriminate. Defined.

(** With a default source there is always a source. *)
Lemma get_expected_source_default (s : StateManager) d src :
  expected_state_change s = Some d → default_source d = Some src →
  get_expected_source s ≠ None.
Proof.
  intros Hd Hdef. rewrite (get_expected_source_unfold s d Hd). cbv zeta.
  case_bool_decide as Hnone; [by rewrite Hdef|done].
Qed.

(** X9. A pending expectation that has a default source claims the next
    transition of any decorated method, whatever the states: the signals
    carry its command id and a source. *)
Theorem default_source_claims (op : Operation) (s : StateManager)
    (d : StateChange) (src : Source) :
  expected_state_change s = Some d → default_source d = Some src →
  signals_of (run op) s ≠ [] →
  ∃ src',
    map payload_of (signals_of (run op) s) =
      transition_payloads (current_state (data s))
        (current_state (data (state_after (run op) s)))
        (command_id d) (Some src').
Proof.
  intros Hd Hdef Hsent.
  destruct (run_transition op s) as [(_ & Hnil & _)|(Hs & _)]; [done|].
  revert Hs. unfold with_default. rewrite Hd.
  set (s1 := shift_history _).
  assert (expected_state_change s1 = Some d) as Hd1
    by (unfold s1; by destruct s).
  assert (is_expected s1 = true) as Hexp.
  { unfold is_expected. rewrite Hd1. cbv zeta.
    rewrite (bool_decide_true (default_source d ≠ None)) by (by rewrite Hdef).
    by rewrite orb_true_r. }
  pose proof (get_expected_source_default s1 d src Hd1 Hdef) as Hsrc.
  unfold attribution. rewrite Hexp, Hd1. cbn [fst snd].
  destruct (get_expected_source s1) as [src'|]; [|done].
  intros ->. exists src'. by destruct (command_id d).
Qed.

Lemma default_source_claims_witness :
  ∃ src',
    map payload_of (signals_of attention default_only_pending) =
      transition_payloads READY ATTENTION (Some 5%Z) (Some src').
Proof.
  apply (default_source_claims op_attention default_only_pending
           default_only_descriptor CONNECT);
    [reflexivity | reflexivity | discriminate].
Defined.

(** ** Telemetry and the file printer *)

(** X10. What [sd_printing_handler] does to the layers.  When the line or
    the file printer says "printing", an unset activity layer becomes
    PRINTING and a set one is kept (also PAUSED and FINISHED); otherwise
    the activity layer is cleared unless it is PAUSED.  The base and
    override layers are never touched. *)
Theorem sd_printing_handler_layers (group0 : option string)
    (s : StateManager) :
  let s' := state_after (sd_printing_handler group0) s in
  base_state (data s') = base_state (data s) ∧
  override_state (data s') = override_state (data s) ∧
  printing_state (data s') =
    if telemetry_printing group0 s then
      match printing_state (data s) with
      | None => Some PRINTING
      | Some activity => Some activity
      end
    else if bool_decide (printing_state (data s) = Some PAUSED)
         then Some PAUSED else None.
Proof.
  cbv zeta. unfold state_after. rewrite sd_printing_handler_run.
  destruct (telemetry_printing group0 s); cbn [negb andb].
  - destruct (run_outcome op_printing s) as (Hlay & _).
    unfold state_after, layers in Hlay. injection Hlay as -> -> ->.
    destruct s as [[b p o l c pr] fp e]. by destruct p.
  - case_bool_decide as Hp; cbn [negb].
    + destruct (run_outcome op_printing s) as (Hlay & _).
      unfold state_after, layers in Hlay. injection Hlay as -> -> ->.
      destruct s as [[b p o l c pr] fp e]. cbn in Hp. by subst p.
    + destruct (run_outcome op_not_printing s) as (Hlay & _).
      unfold state_after, layers in Hlay. injection Hlay as -> -> ->.
      destruct s as [[b p o l c pr] fp e]. by destruct p.
Qed.

(** X11. A file print has started and the activity layer is unset, with no
    override (the base layer READY or BUSY): the transition to PRINTING is attributed to CONNECT and has
    no command id, whatever expectation was pending before (the handler
    replaces it), and no expectation is left pending. *)
Theorem file_print_started (s : StateManager) :
  file_printer_printing s = true →
  printing_state (data s) = None → override_state (data s) = None →
  layers_in_domain s = true → in_sync s →
  let s' := state_after file_printer_started_printing s in
  map payload_of (signals_of file_printer_started_printing s) =
    transition_payloads (base_state (data s)) PRINTING None (Some CONNECT) ∧
  get_state s' = PRINTING ∧
  expected_state_change s' = None.
Proof.
  destruct s as [[b p o l c pr] fp e].
  unfold in_sync, get_state, layers_in_domain. cbn.
  intros -> -> -> Hdom ->.
  unfold state_after, signals_of.
  rewrite file_printer_started_printing_run. cbn [file_printer_printing
    data printing_state andb]. rewrite bool_decide_true by done.
  change printing with (run op_printing). rewrite run_closed.
  destruct b; try discriminate Hdom; vm_compute; done.
Qed.

Lemma file_print_started_witness :
  map payload_of (signals_of file_printer_started_printing
                    file_print_starting) =
    transition_payloads READY PRINTING None (Some CONNECT).
Proof.
  apply (file_print_started file_print_starting); reflexivity.
Defined.

(** A start reported while the activity layer is set to something else
    than PRINTING. *)
Lemma file_printer_started_printing_kept (s : StateManager)
    (activity : State) :
  file_printer_printing s = true →
  printing_state (data s) = Some activity → activity ≠ PRINTING →
  in_sync s →
  let s' := state_after file_printer_started_printing s in
  signals_of file_printer_started_printing s = [] ∧
  data s' = data s ∧
  expected_state_change s' = Some file_started_descriptor.
Proof.
  intros Hfp Hp Hact Hsync s'.
  assert (file_printer_started_printing s =
          run op_printing
            (set_expected_state_change (Some file_started_descriptor) s))
    as Hrun.
  { rewrite file_printer_started_printing_run, Hfp, Hp.
    rewrite bool_decide_true by congruence. done. }
  unfold s', state_after, signals_of. rewrite Hrun, run_closed.
  assert (body_effect op_printing (data s) = data s) as Hbody.
  { unfold body_effect. rewrite Hp. by rewrite bool_decide_false. }
  cbv zeta. unfold with_default, pushes_default, set_data.
  cbn [expected_state_change set_expected_state_change data
       file_printer_printing].
  rewrite Hbody.
  rewrite bool_decide_false; [done|].
  intros Hne. apply Hne. symmetry. exact Hsync.
Qed.

(** X12. The file printer reports a start while the activity layer is
    PAUSED or FINISHED: nothing changes and nothing is published, but the
    expectation the handler announced replaces what was pending and stays
    pending after the handler has returned. *)
Theorem file_print_started_leaves_expectation (s : StateManager)
    (activity : State) :
  file_printer_printing s = true →
  printing_state (data s) = Some activity → activity ≠ PRINTING →
  in_sync s →
  let s' := state_after file_printer_started_printing s in
  signals_of file_printer_started_printing s = [] ∧
  data s' = data s ∧
  expected_state_change s' = Some file_started_descriptor.
Proof. apply file_printer_started_printing_kept. Qed.

Lemma file_print_started_leaves_expectation_witness :
  expected_state_change
    (state_after file_printer_started_printing file_print_paused)
    = Some file_started_descriptor.
Proof.
  apply (file_print_started_leaves_expectation file_print_paused PAUSED);
    [reflexivity | reflexivity | discriminate | reflexivity].
Defined.

(** X13. The expectation left behind by X12 misattributes what comes next:
    after a start reported during a pause, [resumed] publishes PAUSED to
    PRINTING with source CONNECT, not with its own default USER. *)
Theorem resumed_after_file_start (s : StateManager) :
  file_printer_printing s = true →
  printing_state (data s) = Some PAUSED → override_state (data s) = None →
  in_sync s →
  map payload_of
      (signals_of (file_printer_started_printing;; resumed) s) =
    transition_payloads PAUSED PRINTING None (Some CONNECT).
Proof.
  intros Hfp Hp Ho Hsync.
  destruct (file_printer_started_printing_kept s PAUSED Hfp Hp
              ltac:(discriminate) Hsync) as (Hnil & Hdata & He).
  rewrite signals_of_seq, Hnil, app_nil_l.
  set (s1 := state_after file_printer_started_printing s) in *.
  clearbody s1.
  destruct s1 as [d1 fp1 e1]. cbn in Hdata, He. subst d1 e1.
  destruct s as [[b p o l c pr] fp e].
  unfold in_sync, get_state in Hsync. cbn in Hp, Ho, Hsync. subst p o c.
  unfold signals_of. change resumed with (run op_resumed).
  rewrite run_closed. vm_compute. done.
Qed.

Lemma resumed_after_file_start_witness :
  map payload_of
      (signals_of (file_printer_started_printing;; resumed)
         file_print_paused) =
    transition_payloads PAUSED PRINTING None (Some CONNECT).
Proof.
  apply (resumed_after_file_start file_print_paused); reflexivity.
Defined.

(** X14. The file printer reports a stop at 100 percent during a print
    with no override: the transition from PRINTING to FINISHED is
    attributed to MARLIN with no command id, and no expectation is left
    pending.  At any other progress the handler does nothing at all. *)
Theorem file_print_stopped (s : StateManager) :
  printing_state (data s) = Some PRINTING →
  override_state (data s) = None → in_sync s →
  let s' := state_after file_printer_stopped_printing s in
  if bool_decide (progress (data s) = Some 100%Z) then
    map payload_of (signals_of file_printer_stopped_printing s) =
      transition_payloads PRINTING FINISHED None (Some MARLIN) ∧
    printing_state (data s') = Some FINISHED ∧
    expected_state_change s' = None
  else
    file_printer_stopped_printing s = (tt, s, []).
Proof.
  destruct s as [[b p o l c pr] fp e].
  unfold in_sync, get_state. cbn. intros -> -> ->.
  unfold state_after, signals_of.
  rewrite file_printer_stopped_printing_run. cbn [data progress].
  case_bool_decide as Hpr; [|done]. subst pr.
  change finished with (run op_finished). rewrite run_closed.
  vm_compute. done.
Qed.

Lemma file_print_stopped_witness :
  map payload_of (signals_of file_printer_stopped_printing print_complete) =
    transition_payloads PRINTING FINISHED None (Some MARLIN).
Proof.
  apply (file_print_stopped print_complete); reflexivity.
Defined.

(** ** Pause and resume *)

(** X15. [paused] followed by [resumed] during a print brings the layers
    back to what they were; with no override and no expectation pending
    the two transitions, PRINTING to PAUSED and back, are both attributed
    to USER. *)
Theorem pause_resume_round_trip (s : StateManager) :
  printing_state (data s) = Some PRINTING →
  override_state (data s) = None → in_sync s →
  expected_state_change s = None →
  let s' := state_after (paused;; resumed) s in
  layers s' = layers s ∧
  current_state (data s') = PRINTING ∧
  last_state (data s') = PAUSED ∧
  expected_state_change s' = None ∧
  map payload_of (signals_of (paused;; resumed) s) =
    transition_payloads PRINTING PAUSED None (Some USER) ++
    transition_payloads PAUSED PRINTING None (Some USER).
Proof.
  destruct s as [[b p o l c pr] fp e].
  unfold in_sync, get_state. cbn. intros -> -> -> ->.
  rewrite state_after_seq, signals_of_seq, map_app.
  unfold state_after, signals_of.
  change paused with (run op_paused). change resumed with (run op_resumed).
  rewrite !run_closed. vm_compute. done.
Qed.

Lemma pause_resume_round_trip_witness :
  layers (state_after (paused;; resumed) print_complete)
    = layers print_complete.
Proof.
  apply (pause_resume_round_trip print_complete); reflexivity.
Defined.

(** ** The progress *)

(** X16. Only [print_info_handler] writes the progress: every other call
    leaves it as it is, and [print_info_handler] itself touches neither the
    layers, nor the history, nor the expectation, and publishes nothing. *)
Theorem progress_frame (c : Call) (s : StateManager) :
  let s' := state_after (run_call c) s in
  match c with
  | call_print_info_handler group0 =>
      progress (data s') = Some group0 ∧
      layers s' = layers s ∧
      last_state (data s') = last_state (data s) ∧
      current_state (data s') = current_state (data s) ∧
      expected_state_change s' = expected_state_change s ∧
      signals_of (run_call c) s = []
  | _ => progress (data s') = progress (data s)
  end.
Proof.
  cbv zeta.
  assert (∀ op s0, data s0 = data s →
    progress (data (state_after (run op) s0)) = progress (data s)) as Hop.
  { intros op s0 Hs0. destruct (run_outcome op s0) as (_ & Hp & _).
    by rewrite Hp, Hs0. }
  destruct c as [op|change| |group0|group0| | |v]; try done.
  - by apply Hop.
  - unfold state_after. cbn [run_call]. rewrite sd_printing_handler_run.
    destruct (_ && _);
      [by apply (Hop op_not_printing) | by apply (Hop op_printing)].
  - unfold state_after. cbn [run_call].
    rewrite file_printer_started_printing_run.
    destruct (_ && _); [|done]. by apply (Hop op_printing).
  - unfold state_after. cbn [run_call].
    rewrite file_printer_stopped_printing_run.
    destruct (bool_decide _); [|done]. by apply (Hop op_finished).
Qed.
